(** * quick::hash — a shallow embedding of include/quick/hash.hpp

    The header extends [std::hash] to composite types by a family of class
    template specialisations [hash_impl<T>] and four generic helpers
    ([OrderedSequenceHash], [OrderedMapHash], [PairHash], [TupleHash]), and
    offers the variadic entry point [HashFunction].

    Template specialisation is static: which rule hashes a value is decided
    by its C++ type alone.  The embedding therefore works over a universe of
    type codes ([type]) with a decoding [value] to Rocq types; instantiating
    a template is a function on codes whose result is [None] when the
    instantiation is ill-formed (a compile-time error) and [Some hasher]
    otherwise.

    What the header only uses is supplied by the host and is kept abstract
    in two classes: the named types with their [operator==] ([Types]), and
    [boost::hash_combine], [std::hash], the [GetHash] members that types
    declare and the implicit conversions between types ([Host]). *)

From Stdlib Require Import ZArith List Bool Lia.
Import ListNotations.
Local Open Scope Z_scope.

(** ** std::size_t *)

(** [std::size_t] is an unsigned machine word; an LP64 host is assumed. *)
Definition size_t : Type := Z.
Definition size_t_bits : Z := 64.

(** [static_cast<std::size_t>(z)]: reduction modulo [2 ^ size_t_bits]. *)
Definition static_cast_size_t (z : Z) : size_t := z mod 2 ^ size_t_bits.

(** [c.size()] of a standard container whose elements, in iteration order,
    are [input]. *)
Definition size {E : Type} (input : list E) : size_t := Z.of_nat (length input).

(** ** The option monad of template instantiation *)

Definition bind {A B : Type} (m : option A) (k : A -> option B) : option B :=
  match m with
  | Some a => k a
  | None => None
  end.

Notation "x <- m ;; k" := (bind m (fun x => k))
  (at level 61, m at next level, right associativity).

Definition is_some {A : Type} (m : option A) : bool :=
  match m with
  | Some _ => true
  | None => false
  end.

(** ** The named types of the host *)

(** [name]: the types on which no structural specialisation of [hash_impl]
    matches (scalars other than [bool] and [std::size_t], [std::string],
    user classes), with their values and their [operator==].  [enum]: the enumeration types; a value of an
    enumeration is represented by its underlying integer.  Both families
    have decidable equality: the compiler can tell whether two types are the
    same. *)
Class Types : Type := {
  name : Type;
  named_val : name -> Type;
  named_eqb : forall n : name, named_val n -> named_val n -> bool;
  enum : Type;
  name_eq_dec : forall n m : name, {n = m} + {n <> m};
  enum_eq_dec : forall e f : enum, {e = f} + {e <> f}
}.

Section Universe.
Context {T : Types}.

(** ** Type codes and their values *)

#[local] Set Warnings "-register-all".
Inductive type : Type :=
| SizeT                            (* std::size_t *)
| Bool                             (* bool *)
| Named (n : name)                 (* scalar or class type *)
| Enum (e : enum)                  (* enumeration type *)
| Vector (t : type)                (* std::vector<T> *)
| List (t : type)                  (* std::list<T> *)
| Set_ (t : type)                  (* std::set<T, ...> *)
| Map (k v : type)                 (* std::map<K, V, ...> *)
| Pair (t1 t2 : type)              (* std::pair<T1, T2> *)
| Tuple (ts : list type).          (* std::tuple<Ts...> *)
#[local] Set Warnings "register-all".

(** Induction on type codes, with the hypothesis available for every
    element type of a tuple. *)
Section type_nested_ind.
Variable P : type -> Prop.
Hypothesis PSizeT : P SizeT.
Hypothesis PBool : P Bool.
Hypothesis PNamed : forall n, P (Named n).
Hypothesis PEnum : forall e, P (Enum e).
Hypothesis PVector : forall t, P t -> P (Vector t).
Hypothesis PList : forall t, P t -> P (List t).
Hypothesis PSet : forall t, P t -> P (Set_ t).
Hypothesis PMap : forall k v, P k -> P v -> P (Map k v).
Hypothesis PPair : forall t1 t2, P t1 -> P t2 -> P (Pair t1 t2).
Hypothesis PTuple : forall ts, Forall P ts -> P (Tuple ts).

Fixpoint type_nested_ind (t : type) : P t :=
  match t with
  | SizeT => PSizeT
  | Bool => PBool
  | Named n => PNamed n
  | Enum e => PEnum e
  | Vector t' => PVector t' (type_nested_ind t')
  | List t' => PList t' (type_nested_ind t')
  | Set_ t' => PSet t' (type_nested_ind t')
  | Map k v => PMap k v (type_nested_ind k) (type_nested_ind v)
  | Pair t1 t2 => PPair t1 t2 (type_nested_ind t1) (type_nested_ind t2)
  | Tuple ts =>
      PTuple ts
        ((fix all (ts : list type) : Forall P ts :=
            match ts with
            | [] => Forall_nil P
            | t' :: ts' => Forall_cons t' (type_nested_ind t') (all ts')
            end) ts)
  end.
End type_nested_ind.

(** Whether two types are the same type. *)
Definition type_eq_dec : forall a b : type, {a = b} + {a <> b}.
Proof.
  fix same 1.
  intros a b; decide equality;
    solve [ apply name_eq_dec | apply enum_eq_dec | apply list_eq_dec; exact same ].
Defined.

(** A container is represented by the sequence its iterator yields (for
    [std::set] and [std::map] that is the comparator's order); a tuple is a
    right-nested product closed by [unit].  [bool] has a code of its own
    because [std::vector<bool>] is the bit-packed specialisation, whose
    iterators yield proxies and not references. *)
Fixpoint value (t : type) : Type :=
  match t with
  | SizeT => size_t
  | Bool => bool
  | Named n => named_val n
  | Enum _ => Z
  | Vector t' => list (value t')
  | List t' => list (value t')
  | Set_ t' => list (value t')
  | Map k v => list (value k * value v)
  | Pair t1 t2 => value t1 * value t2
  | Tuple ts =>
      (fix tuple (ts : list type) : Type :=
         match ts with
         | [] => unit
         | t' :: ts' => value t' * tuple ts'
         end) ts
  end%type.

Definition tuple (ts : list type) : Type := value (Tuple ts).

(** A value together with its static type: one function argument of a
    variadic template. *)
Definition arg : Type := {t : type & value t}.

Definition make_arg (t : type) (v : value t) : arg := existT value t v.

Definition is_bool (t : type) : bool :=
  match t with
  | Bool => true
  | _ => false
  end.

End Universe.

(** ** The hash functions of the host *)

(** [std_hash n]: [std::hash<T>] where the host (or the user) specialises
    it.  [std_hash_size_t] and [std_hash_bool]: [std::hash<std::size_t>] and
    [std::hash<bool>].  [GetHash t]: the member function [T::GetHash] of
    the types that declare one: a user class, or a specialisation of a
    standard template that the program defines for a user type and gives
    such a member (scalars and enumerations have no members).
    [hash_combine seed v]: the new value of [seed] after
    [boost::hash_combine(seed, v)] on a [std::size_t] argument.
    [convert from to]: the implicit conversion C++ finds when an lvalue of
    type [from] initialises a parameter of another type [to], [None] when
    there is none. *)
Class Host {T : Types} : Type := {
  std_hash : forall n : name, option (named_val n -> size_t);
  std_hash_size_t : size_t -> size_t;
  std_hash_bool : bool -> size_t;
  GetHash : forall t : type, option (value t -> size_t);
  hash_combine : size_t -> size_t -> size_t;
  convert : forall from to : type, option (value from -> value to)
}.

Section Quick.
Context {T : Types} {H : Host}.

(** How a function whose parameter has type [const to&] receives an lvalue
    of type [from]: the reference binds directly when the two types are the
    same, otherwise an implicit conversion is needed. *)
Definition pass (from to : type) : option (value from -> value to) :=
  match type_eq_dec from to with
  | left same => Some (fun x => eq_rect from value x to same)
  | right _ => convert from to
  end.

(** ** operator== *)

(** [operator==] of the sequence containers: equal sizes and pairwise equal
    elements. *)
Fixpoint list_eqb {E : Type} (eqb : E -> E -> bool) (a b : list E) : bool :=
  match a, b with
  | [], [] => true
  | x :: a', y :: b' => eqb x y && list_eqb eqb a' b'
  | _, _ => false
  end.

(** The type's own equality. *)
Fixpoint equal (t : type) : value t -> value t -> bool :=
  match t return value t -> value t -> bool with
  | SizeT => Z.eqb
  | Bool => Bool.eqb
  | Named n => named_eqb n
  | Enum _ => Z.eqb
  | Vector t' => list_eqb (equal t')
  | List t' => list_eqb (equal t')
  | Set_ t' => list_eqb (equal t')
  | Map k v =>
      list_eqb (fun e1 e2 =>
                  equal k (fst e1) (fst e2) && equal v (snd e1) (snd e2))
  | Pair t1 t2 =>
      fun p q => equal t1 (fst p) (fst q) && equal t2 (snd p) (snd q)
  | Tuple ts =>
      (fix each (ts : list type) : tuple ts -> tuple ts -> bool :=
         match ts return tuple ts -> tuple ts -> bool with
         | [] => fun _ _ => true
         | t' :: ts' =>
             fun p q => equal t' (fst p) (fst q) && each ts' (snd p) (snd q)
         end) ts
  end.

(** ** The generic helpers *)

(** [OrderedSequenceHash] (lines 55-63); [hasher] is
    [hash_impl<typename Container::value_type>()], and [hash_impl<size_t>]
    is the primary template, that is [std::hash<std::size_t>].  The loop of
    line 59 binds [auto& e] to what the const iterator yields; see
    [hash_impl] for the one container where that is ill-formed. *)
Definition OrderedSequenceHash {E : Type} (hasher : E -> size_t)
    (input : list E) : size_t :=
  let hash := std_hash_size_t (size input) in
  fold_left (fun hash e => hash_combine hash (hasher e)) input hash.

(** [OrderedMapHash] (lines 65-75).  [value_hasher] is declared and never
    called: line 72 passes [e.second] to [key_hasher], which receives it as
    a key by [conv]. *)
Definition OrderedMapHash {K V : Type} (key_hasher : K -> size_t)
    (value_hasher : option (V -> size_t)) (conv : V -> K)
    (input : list (K * V)) : size_t :=
  let hash := 0 in
  fold_left
    (fun hash e =>
       let hash := hash_combine hash (key_hasher (fst e)) in
       hash_combine hash (key_hasher (conv (snd e))))
    input hash.

(** [PairHash] (lines 79-85). *)
Definition PairHash {T1 T2 : Type} (hasher1 : T1 -> size_t)
    (hasher2 : T2 -> size_t) (p : T1 * T2) : size_t :=
  let hash1 := hasher1 (fst p) in
  let hash2 := hasher2 (snd p) in
  hash_combine hash1 hash2.

(** The tuple helpers use the class template [hash_impl] at each element
    type before its specialisations are declared; here it is an argument,
    and [hash_impl] below passes itself. *)
Section Tuples.
Variable hash_impl : forall t : type, option (value t -> size_t).

(** The pack expansion of lines 95-98: the initialiser list
    [hash_impl<tuple_element<index, tuple>::type>()(std::get<index>(input))...]
    with one entry per position, in positional order. *)
Fixpoint hashed_elements (ts : list type) : option (tuple ts -> list size_t) :=
  match ts return option (tuple ts -> list size_t) with
  | [] => Some (fun _ => [])
  | t' :: ts' =>
      hasher <- hash_impl t' ;;
      rest <- hashed_elements ts' ;;
      Some (fun input => hasher (fst input) :: rest (snd input))
  end.

(** [TupleHashImplHelper] (lines 92-100): [hashed_elements] is a
    [std::vector<std::size_t>], so the element hasher of
    [OrderedSequenceHash] is [hash_impl<size_t>], that is
    [std::hash<std::size_t>]. *)
Definition TupleHashImplHelper (ts : list type)
    : option (tuple ts -> size_t) :=
  hashed_elements <- hashed_elements ts ;;
  Some (fun input =>
          OrderedSequenceHash std_hash_size_t (hashed_elements input)).

(** [TupleHash] (lines 102-108): the helper on the index sequence of all
    positions. *)
Definition TupleHash (ts : list type) : option (tuple ts -> size_t) :=
  TupleHashImplHelper ts.

End Tuples.

(** ** hash_impl *)

(** Whether [hash_impl<T>()] can be constructed without calling it.  The
    primary template derives from [std::hash<T>], which is not constructible
    unless specialised; every specialisation of the header is an empty
    struct. *)
Definition default_constructible (t : type) : bool :=
  match t with
  | Named n => is_some (GetHash (Named n)) || is_some (std_hash n)
  | _ => true
  end.

(** [hash_impl<T>::operator()] for each specialisation (lines 40-41 and
    113-190), as partial ordering selects them.  On a named type the
    [GetHash] specialisation (lines 185-190) is more specialised than the
    primary template, so it is selected whenever the member exists.  On an
    instance of a standard template the specialisation for that template
    ([hash_impl<std::vector<T>>] and the like, second argument [void]) is
    more specialised than the [GetHash] one, whose first argument is a bare
    [T]: it is selected whether or not the type declares [GetHash].
    [std::vector<bool>] has no hash: its const iterator yields a [bool]
    prvalue, to which [auto& e] on line 59 cannot bind. *)
Fixpoint hash_impl (t : type) : option (value t -> size_t) :=
  match t return option (value t -> size_t) with
  | SizeT => Some std_hash_size_t
  | Bool => Some std_hash_bool
  | Named n =>
      match GetHash (Named n) with
      | Some get_hash => Some get_hash
      | None => std_hash n
      end
  | Enum _ => Some static_cast_size_t
  | Vector t' =>
      if is_bool t' then None
      else hasher <- hash_impl t' ;; Some (OrderedSequenceHash hasher)
  | List t' => hasher <- hash_impl t' ;; Some (OrderedSequenceHash hasher)
  | Set_ t' => hasher <- hash_impl t' ;; Some (OrderedSequenceHash hasher)
  | Map k v =>
      key_hasher <- hash_impl k ;;
      conv <- pass v k ;;
      if default_constructible v
      then Some (OrderedMapHash key_hasher (hash_impl v) conv)
      else None
  | Pair t1 t2 =>
      hasher1 <- hash_impl t1 ;;
      hasher2 <- hash_impl t2 ;;
      Some (PairHash hasher1 hasher2)
  | Tuple ts => TupleHash hash_impl ts
  end.

(** [quick::hash<T>()(input)] (line 194); [None] when [quick::hash<T>]
    does not instantiate. *)
Definition hash (t : type) (input : value t) : option size_t :=
  hasher <- hash_impl t ;; Some (hasher input).

(** ** HashFunction (lines 202-217) *)

(** The unary overload. *)
Definition HashFunction1 (input : arg) : option size_t :=
  hash (projT1 input) (projT2 input).

(** Overload resolution on the number of arguments: the nullary function,
    the unary template, or the variadic template for two or more. *)
Definition HashFunction (inputs : list arg) : option size_t :=
  match inputs with
  | [] => Some 0
  | [input] => HashFunction1 input
  | i1 :: i2 :: is_ =>
      hash <- HashFunction1 i1 ;;
      h2 <- HashFunction1 i2 ;;
      let hash := hash_combine hash h2 in
      fold_left
        (fun acc i =>
           hash <- acc ;;
           h <- HashFunction1 i ;;
           Some (hash_combine hash h))
        is_ (Some hash)
  end.

(** ** The algorithms as the specification words them *)

(** Sequence Hasher: seed = Hash(length(seq)); for each element e in
    iteration order, seed = Combine(seed, Hash(e)); return seed. *)
Definition length_seeded_fold {E : Type} (Hash : E -> size_t)
    (seq : list E) : size_t :=
  fold_left (fun seed e => hash_combine seed (Hash e)) seq
    (std_hash_size_t (size seq)).

(** Mapping Hasher: for each entry in iteration order, combine the key's
    hash and then the value's hash into a running accumulator. *)
Definition entrywise_fold {K V : Type} (key_hash : K -> size_t)
    (value_hash : V -> size_t) (m : list (K * V)) : size_t :=
  fold_left
    (fun acc e =>
       hash_combine (hash_combine acc (key_hash (fst e)))
         (value_hash (snd e)))
    m 0.

(** [std::get<index>(input)], with the element's static type. *)
Fixpoint std_get (ts : list type) (index : nat) : tuple ts -> option arg :=
  match ts return tuple ts -> option arg with
  | [] => fun _ => None
  | t' :: ts' =>
      fun input =>
        match index with
        | O => Some (make_arg t' (fst input))
        | S index' => std_get ts' index' (snd input)
        end
  end.

(** Evaluate a list of hashing steps from left to right. *)
Fixpoint collect {A : Type} (steps : list (option A)) : option (list A) :=
  match steps with
  | [] => Some []
  | step :: steps' =>
      a <- step ;;
      rest <- collect steps' ;;
      Some (a :: rest)
  end.

(** Pair/Tuple Hasher, first half: each element's hash by its own rule,
    collected into a list in positional order. *)
Definition element_hashes (ts : list type) (input : tuple ts)
    : option (list size_t) :=
  collect
    (map (fun index => element <- std_get ts index input ;;
                       HashFunction1 element)
       (seq 0 (length ts))).

(** Pair/Tuple Hasher: the Sequence Hasher over the list of sub-hashes. *)
Definition sequence_hash_of_element_hashes (ts : list type)
    (input : tuple ts) : option size_t :=
  sub_hashes <- element_hashes ts input ;;
  hash (Vector SizeT) sub_hashes.

(** The preconditions of the consistency law: the hasher selected for a
    named type ([GetHash] when the class declares it, see Warning-1 of the
    header, [std::hash] otherwise) gives equal values on [==]-equal objects,
    and implicit conversions map [==]-equal objects to [==]-equal objects. *)
Definition hashers_respect_equality : Prop :=
  forall (n : name) (hasher : named_val n -> size_t) (a b : named_val n),
    hash_impl (Named n) = Some hasher ->
    named_eqb n a b = true -> hasher a = hasher b.

Definition conversions_respect_equality : Prop :=
  forall (from to : type) (conv : value from -> value to) (a b : value from),
    convert from to = Some conv ->
    equal from a b = true -> equal to (conv a) (conv b) = true.

(** ** Further entry points and notions used by the laws below *)

(** [HashF] (lines 196-200), deprecated in favour of [HashFunction]. *)
Definition HashF (input : arg) : option size_t :=
  hash (projT1 input) (projT2 input).

(** [std::make_pair(a, b)], with its static type. *)
Definition make_pair (a b : arg) : arg :=
  make_arg (Pair (projT1 a) (projT1 b)) (projT2 a, projT2 b).

(** [make_pair(... make_pair(make_pair(v, v1), v2) ..., vn)]: pairs nested
    to the left. *)
Fixpoint nest (v : arg) (vs : list arg) : arg :=
  match vs with
  | [] => v
  | w :: vs' => nest (make_pair v w) vs'
  end.

(** Two arguments of the same static type that compare equal with [==]. *)
Inductive arg_equal : arg -> arg -> Prop :=
| arg_equal_intro (t : type) (x y : value t) :
    equal t x y = true -> arg_equal (make_arg t x) (make_arg t y).

(** The elements of a [std::tuple<T, ..., T>] of [n] elements, in
    positional order. *)
Fixpoint elements (t : type) (n : nat) : tuple (repeat t n) -> list (value t) :=
  match n return tuple (repeat t n) -> list (value t) with
  | O => fun _ => []
  | S n' => fun input => fst input :: elements t n' (snd input)
  end.

(** The host in which the types declare the [GetHash] members [members]
    and everything else is as in [H]. *)
Definition with_GetHash
    (members : forall t : type, option (value t -> size_t)) : Host := {|
  std_hash := std_hash;
  std_hash_size_t := std_hash_size_t;
  std_hash_bool := std_hash_bool;
  GetHash := members;
  hash_combine := hash_combine;
  convert := convert
|}.

(** A map with every mapped value converted by [conv]. *)
Definition convert_mapped {K V W : Type} (conv : V -> W)
    (m : list (K * V)) : list (K * W) :=
  map (fun e => (fst e, conv (snd e))) m.

End Quick.

(** ** Standard conversions between the scalar types

    The integral conversions C++ applies implicitly: to [bool] by comparing
    with zero, from [bool] as 0 or 1, to [std::size_t] modulo [2 ^ 64], to
    [int] modulo [2 ^ 32] into the signed range. *)

Definition integral_to_bool (z : Z) : bool := negb (Z.eqb z 0).

Definition bool_to_integral (b : bool) : Z := if b then 1 else 0.

Definition to_int (z : Z) : Z := (z + 2 ^ 31) mod 2 ^ 32 - 2 ^ 31.

(** ** A sample host

    The hash functions of GCC's libstdc++ on x86-64 (integral types hash to
    their value converted to [std::size_t]), the [hash_combine] formula
    given in Boost's documentation, and a few user types. *)
Module Sample.

(** [Int] is [int].  [Version] is a class with two [int] members, a
    member-wise [operator==] and
    [GetHash() { return qk::HashFunction(major, minor); }].
    [Token] wraps an [int]; it declares [GetHash] and also specialises
    [std::hash<Token>].  [Blob] is a class with no hash function at all.
    The constructors of the three classes are explicit and the classes
    declare no conversion functions.  [Color] is an unscoped enumeration
    with underlying type [int]. *)
Inductive class : Type := Int | Version | Token | Blob.

Inductive enumeration : Type := Color.

Definition class_val (c : class) : Type :=
  match c with
  | Int => Z
  | Version => (Z * Z)%type
  | Token => Z
  | Blob => list Z
  end.

Definition class_eqb (c : class) : class_val c -> class_val c -> bool :=
  match c return class_val c -> class_val c -> bool with
  | Int => Z.eqb
  | Version => fun a b => Z.eqb (fst a) (fst b) && Z.eqb (snd a) (snd b)
  | Token => Z.eqb
  | Blob => list_eqb Z.eqb
  end.

Definition class_eq_dec : forall c d : class, {c = d} + {c <> d}.
Proof. decide equality. Defined.

Definition enumeration_eq_dec :
  forall e f : enumeration, {e = f} + {e <> f}.
Proof. decide equality. Defined.

#[export] Instance types : Types := {|
  name := class;
  named_val := class_val;
  named_eqb := class_eqb;
  enum := enumeration;
  name_eq_dec := class_eq_dec;
  enum_eq_dec := enumeration_eq_dec
|}.

(** The type codes of [bool], [int], the three classes and [Color]. *)
Definition t_bool : type := Bool.
Definition t_int : type := Named (Int : name).
Definition t_Version : type := Named (Version : name).
Definition t_Token : type := Named (Token : name).
Definition t_Blob : type := Named (Blob : name).
Definition t_Color : type := Enum (Color : enum).

(** [seed ^= v + 0x9e3779b9 + (seed << 6) + (seed >> 2)] on 64-bit words. *)
Definition boost_hash_combine (seed v : size_t) : size_t :=
  Z.lxor seed
    (static_cast_size_t
       (v + 0x9e3779b9 + static_cast_size_t (Z.shiftl seed 6)
        + Z.shiftr seed 2)).

Definition hash_bool (b : bool) : size_t := if b then 1 else 0.

Definition class_std_hash (c : class) : option (class_val c -> size_t) :=
  match c return option (class_val c -> size_t) with
  | Int => Some static_cast_size_t
  | Version => None
  | Token => Some static_cast_size_t
  | Blob => None
  end.

(** Only the classes [Version] and [Token] declare [GetHash]; the program
    specialises no standard template. *)
Definition class_GetHash (t : type) : option (value t -> size_t) :=
  match t return option (value t -> size_t) with
  | Named Version =>
      Some (fun v : Z * Z =>
              boost_hash_combine (static_cast_size_t (fst v))
                (static_cast_size_t (snd v)))
  | Named Token => Some (fun id : Z => static_cast_size_t (id * 31 + 7))
  | _ => None
  end.

(** The implicit conversions between different types of this program: the
    standard conversions between [bool], [int] and [std::size_t] and from
    the unscoped enumeration to each of them.  The classes convert to and
    from nothing, and no sequence container or map converts to another
    type.  The converting constructors of [std::pair] and [std::tuple] are
    not listed: a map whose mapped type is a pair or tuple different from
    its key type is outside this sample. *)
Definition class_convert (from to : type)
    : option (value from -> value to) :=
  match from, to return option (value from -> value to) with
  | Named Int, Bool => Some (fun z : Z => negb (Z.eqb z 0))
  | Bool, Named Int => Some (fun b : bool => if b then 1 else 0)
  | Named Int, SizeT => Some static_cast_size_t
  | SizeT, Named Int => Some to_int
  | SizeT, Bool => Some integral_to_bool
  | Bool, SizeT => Some bool_to_integral
  | Enum Color, Named Int => Some (fun z : Z => z)
  | Enum Color, SizeT => Some static_cast_size_t
  | Enum Color, Bool => Some integral_to_bool
  | _, _ => None
  end.

#[export] Instance host : Host := {|
  std_hash := class_std_hash;
  std_hash_size_t := fun z => z;
  std_hash_bool := hash_bool;
  GetHash := class_GetHash;
  hash_combine := boost_hash_combine;
  convert := class_convert
|}.

End Sample.

(** ** A second host, with the corners of the dispatch

    The same library functions as in [Sample], and a program with one class
    and one specialisation of a standard template. *)
Module Corner.

(** [Int] is [int].  [Approx] holds an [int] [raw]; its [operator==]
    compares [raw / 2], its [GetHash] returns [std::hash<int>()(raw / 2)]
    (so it meets Warning-1 of the header), and it declares the implicit
    conversion function [operator int() const { return raw; }].
    The program also specialises [std::vector<Approx>] and gives the
    specialisation a member [GetHash() const { return size(); }]. *)
Inductive class : Type := Int | Approx.

(** The program declares no enumeration. *)
Inductive enumeration : Type := .

Definition class_val (c : class) : Type := Z.

Definition class_eqb (c : class) : class_val c -> class_val c -> bool :=
  match c with
  | Int => Z.eqb
  | Approx => fun a b => Z.eqb (a / 2) (b / 2)
  end.

Definition class_eq_dec : forall c d : class, {c = d} + {c <> d}.
Proof. decide equality. Defined.

Definition enumeration_eq_dec :
  forall e f : enumeration, {e = f} + {e <> f}.
Proof. intros []. Defined.

#[export] Instance types : Types := {|
  name := class;
  named_val := class_val;
  named_eqb := class_eqb;
  enum := enumeration;
  name_eq_dec := class_eq_dec;
  enum_eq_dec := enumeration_eq_dec
|}.

Definition t_int : type := Named (Int : name).
Definition t_Approx : type := Named (Approx : name).

Definition class_std_hash (c : class) : option (class_val c -> size_t) :=
  match c with
  | Int => Some static_cast_size_t
  | Approx => None
  end.

Definition Approx_GetHash (raw : Z) : size_t := static_cast_size_t (raw / 2).

Definition vector_Approx_GetHash (v : list Z) : size_t := size v.

Definition class_GetHash (t : type) : option (value t -> size_t) :=
  match t return option (value t -> size_t) with
  | Named Approx => Some Approx_GetHash
  | Vector (Named Approx) => Some vector_Approx_GetHash
  | _ => None
  end.

(** The standard conversions between [bool], [int] and [std::size_t], and
    [Approx::operator int], alone or followed by a standard conversion. *)
Definition class_convert (from to : type)
    : option (value from -> value to) :=
  match from, to return option (value from -> value to) with
  | Named Int, Bool => Some integral_to_bool
  | Bool, Named Int => Some bool_to_integral
  | Named Int, SizeT => Some static_cast_size_t
  | SizeT, Named Int => Some to_int
  | SizeT, Bool => Some integral_to_bool
  | Bool, SizeT => Some bool_to_integral
  | Named Approx, Named Int => Some (fun raw : Z => raw)
  | Named Approx, SizeT => Some static_cast_size_t
  | Named Approx, Bool => Some integral_to_bool
  | _, _ => None
  end.

#[export] Instance host : Host := {|
  std_hash := class_std_hash;
  std_hash_size_t := fun z => z;
  std_hash_bool := Sample.hash_bool;
  GetHash := class_GetHash;
  hash_combine := Sample.boost_hash_combine;
  convert := class_convert
|}.

End Corner.

(** ** Properties *)

Section QuickFacts.
Context {T : Types} {H : Host}.

Lemma bind_Some {A B : Type} (m : option A) (k : A -> option B) (b : B) :
  bind m k = Some b -> exists a, m = Some a /\ k a = Some b.
Proof.
  destruct m as [a|]; simpl; intros E; [exists a; auto | discriminate].
Qed.

Lemma hash_Some (t : type) (hasher : value t -> size_t) (input : value t) :
  hash_impl t = Some hasher -> hash t input = Some (hasher input).
Proof. unfold hash; intros ->; reflexivity. Qed.

Lemma hash_SizeT (n : size_t) : hash SizeT n = Some (std_hash_size_t n).
Proof. reflexivity. Qed.

Lemma hash_impl_Tuple (ts : list type) :
  hash_impl (Tuple ts) =
  (expansion <- hashed_elements hash_impl ts ;;
   Some (fun input => OrderedSequenceHash std_hash_size_t (expansion input))).
Proof. reflexivity. Qed.

(** *** Sequences *)

(** C3. A vector, list or set that has a hash hashes to the fold that
    starts from the hash of the element count and combines the hash of each
    element in iteration order; the empty sequence hashes to the hash of
    zero.  A list or a set has a hash whenever its element type has one; a
    vector as well, except [std::vector<bool>], on which line 59 does not
    compile. *)
Theorem sequence_hash_is_length_seeded_fold (t : type)
    (hasher : value t -> size_t) (input : list (value t)) :
  hash_impl t = Some hasher ->
  exists seed : size_t,
    hash SizeT (Z.of_nat (length input)) = Some seed /\
    hash (List t) input =
      Some (fold_left (fun seed e => hash_combine seed (hasher e)) input seed) /\
    hash (Set_ t) input =
      Some (fold_left (fun seed e => hash_combine seed (hasher e)) input seed) /\
    hash (List t) [] = hash SizeT 0 /\
    hash (Set_ t) [] = hash SizeT 0 /\
    (is_some (hash_impl (Vector t)) = true ->
     hash (Vector t) input =
       Some (fold_left (fun seed e => hash_combine seed (hasher e))
               input seed) /\
     hash (Vector t) [] = hash SizeT 0).
Proof.
  intros Ht. exists (std_hash_size_t (Z.of_nat (length input))).
  unfold hash; simpl; rewrite Ht; simpl.
  repeat split; try reflexivity;
    destruct (is_bool t); try discriminate; reflexivity.
Qed.

(** *** Pairs *)

(** C2, as the code has it. A pair hashes to the combination of the hash of
    its first component with the hash of its second; there is no list of
    sub-hashes and no length seed. *)
Theorem pair_hash_combines_components (t1 t2 : type)
    (hasher1 : value t1 -> size_t) (hasher2 : value t2 -> size_t)
    (p : value (Pair t1 t2)) :
  hash_impl t1 = Some hasher1 ->
  hash_impl t2 = Some hasher2 ->
  hash (Pair t1 t2) p = Some (hash_combine (hasher1 (fst p)) (hasher2 (snd p))).
Proof.
  intros H1 H2. unfold hash; simpl. rewrite H1, H2. reflexivity.
Qed.

(** C9. Hashing a pair and passing its two components to [HashFunction]
    give the same result, the plain combination of the two component
    hashes; either both calls compile or neither does. *)
Theorem pair_hash_is_HashFunction_of_components (t1 t2 : type)
    (p : value (Pair t1 t2)) :
  hash (Pair t1 t2) p = HashFunction [make_arg t1 (fst p); make_arg t2 (snd p)]
  /\ (forall h1 h2 : size_t,
        hash t1 (fst p) = Some h1 -> hash t2 (snd p) = Some h2 ->
        HashFunction [make_arg t1 (fst p); make_arg t2 (snd p)]
        = Some (hash_combine h1 h2)).
Proof.
  split.
  - unfold HashFunction, HashFunction1, hash; simpl.
    destruct (hash_impl t1) as [hasher1|]; simpl; [|reflexivity].
    destruct (hash_impl t2) as [hasher2|]; reflexivity.
  - intros h1 h2 E1 E2. unfold HashFunction, HashFunction1; simpl.
    rewrite E1, E2. reflexivity.
Qed.

(** *** HashFunction *)

(** C7. The call without arguments returns 0. *)
Theorem HashFunction_nullary : HashFunction [] = Some 0.
Proof. reflexivity. Qed.

Lemma HashFunction_fold_None (inputs : list arg) :
  fold_left
    (fun acc i => hash <- acc ;; h <- HashFunction1 i ;;
                  Some (hash_combine hash h))
    inputs None = None.
Proof. induction inputs as [|i inputs IH]; simpl; auto. Qed.

Lemma HashFunction_fold (inputs : list arg) (hs : list size_t) :
  Forall2 (fun i h => HashFunction1 i = Some h) inputs hs ->
  forall seed : size_t,
    fold_left
      (fun acc i => hash <- acc ;; h <- HashFunction1 i ;;
                    Some (hash_combine hash h))
      inputs (Some seed)
    = Some (fold_left hash_combine hs seed).
Proof.
  induction 1 as [|i h inputs hs Hi _ IH]; intros seed; simpl.
  - reflexivity.
  - rewrite Hi; simpl. apply IH.
Qed.

(** C6. With one argument or more, [HashFunction] starts from the hash of
    the first argument and combines into it the hash of each further
    argument, in argument order; with one argument that is the hash of the
    argument. *)
Theorem HashFunction_folds_in_argument_order (v1 : arg) (vs : list arg)
    (h1 : size_t) (hs : list size_t) :
  HashFunction1 v1 = Some h1 ->
  Forall2 (fun v h => HashFunction1 v = Some h) vs hs ->
  HashFunction (v1 :: vs) = Some (fold_left hash_combine hs h1)
  /\ HashFunction [v1] = hash (projT1 v1) (projT2 v1).
Proof.
  intros E1 Evs. split; [|reflexivity].
  destruct Evs as [|v2 h2 vs hs E2 Evs]; simpl.
  - exact E1.
  - rewrite E1, E2; simpl. apply HashFunction_fold; assumption.
Qed.

(** *** User types *)

Lemma hashed_elements_ext
    (f g : forall t : type, option (value t -> size_t)) (ts : list type) :
  Forall (fun t => f t = g t) ts ->
  hashed_elements f ts = hashed_elements g ts.
Proof.
  induction 1 as [|t ts Ht _ IH]; simpl; [reflexivity|].
  rewrite Ht, IH. reflexivity.
Qed.

Lemma hash_impl_with_GetHash
    (members : forall t : type, option (value t -> size_t)) :
  (forall m : name, members (Named m) = GetHash (Named m)) ->
  forall t : type, @hash_impl T (with_GetHash members) t = hash_impl t.
Proof.
  intros Hnamed.
  induction t as [ | | n | e | t IH | t IH | t IH | k v IHk IHv
                 | t1 t2 IH1 IH2 | ts IH ] using type_nested_ind.
  - reflexivity.
  - reflexivity.
  - simpl. rewrite Hnamed. reflexivity.
  - reflexivity.
  - simpl. rewrite IH. reflexivity.
  - simpl. rewrite IH. reflexivity.
  - simpl. rewrite IH. reflexivity.
  - simpl. rewrite IHk, IHv.
    assert (@default_constructible T (with_GetHash members) v
            = default_constructible v) as ->
      by (destruct v; simpl; rewrite ?Hnamed; reflexivity).
    reflexivity.
  - simpl. rewrite IH1, IH2. reflexivity.
  - simpl. unfold TupleHash, TupleHashImplHelper.
    rewrite (hashed_elements_ext _ hash_impl ts IH). reflexivity.
Qed.

(** C8, as the code has it. For a class that declares [GetHash], the hash
    of an object is the result of its [GetHash], whether or not [std::hash]
    is specialised for the class as well.  That is all the member overrides:
    which [GetHash] members the instances of the standard templates declare
    makes no difference to any hash. *)
Theorem GetHash_takes_precedence_on_named_types (n : name)
    (get_hash : value (Named n) -> size_t) (t : value (Named n)) :
  GetHash (Named n) = Some get_hash ->
  hash (Named n) t = Some (get_hash t)
  /\ hash_impl (Named n) = Some get_hash
  /\ forall members : forall t : type, option (value t -> size_t),
       (forall m : name, members (Named m) = GetHash (Named m)) ->
       forall t' : type,
         @hash_impl T (with_GetHash members) t' = hash_impl t'.
Proof.
  intros E. unfold hash; simpl. rewrite E.
  split; [reflexivity|]. split; [reflexivity|].
  exact hash_impl_with_GetHash.
Qed.

(** *** Maps *)

(** C10. The hash of an empty map is 0, the value of [HashFunction()]: the
    accumulator of the map hasher starts at 0 and folds the entries into it,
    with no hash of the entry count. *)
Theorem empty_map_hashes_to_zero (k v : type)
    (hasher : value (Map k v) -> size_t) :
  hash_impl (Map k v) = Some hasher ->
  hasher [] = 0
  /\ hash (Map k v) [] = HashFunction []
  /\ exists step : size_t -> value k * value v -> size_t,
       forall m : value (Map k v), hasher m = fold_left step m 0.
Proof.
  intros E. pose proof E as E'. simpl in E'.
  apply bind_Some in E' as (key_hasher & Hk & E').
  apply bind_Some in E' as (conv & Hc & E').
  destruct (default_constructible v); [|discriminate].
  injection E' as <-.
  split; [reflexivity|]. split.
  - unfold hash. rewrite E. reflexivity.
  - eexists. intros m. unfold OrderedMapHash. reflexivity.
Qed.

Lemma map_hash_as_coded (k v : type) (key_hasher : value k -> size_t)
    (conv : value v -> value k) (m : value (Map k v)) :
  hash_impl k = Some key_hasher ->
  pass v k = Some conv ->
  default_constructible v = true ->
  hash (Map k v) m
  = Some (entrywise_fold key_hasher (fun x => key_hasher (conv x)) m).
Proof.
  intros Hk Hc Hv. unfold hash; simpl. rewrite Hk; simpl. rewrite Hc; simpl.
  rewrite Hv. reflexivity.
Qed.

Lemma pass_same_type (t : type) : pass t t = Some (fun x => x).
Proof.
  unfold pass. destruct (type_eq_dec t t) as [same|different].
  - rewrite (Eqdep_dec.UIP_dec type_eq_dec same eq_refl). reflexivity.
  - contradiction.
Qed.

Lemma hash_impl_default_constructible (t : type) (hasher : value t -> size_t) :
  hash_impl t = Some hasher -> default_constructible t = true.
Proof.
  destruct t; simpl; auto.
  destruct (GetHash (Named n)); simpl; auto. intros ->. reflexivity.
Qed.

(** Where the mapped type is the key type, the key's rule is the value's
    rule and the map hasher does what the specification describes. *)
Lemma map_hash_same_types (k : type) (key_hasher : value k -> size_t)
    (m : value (Map k k)) :
  hash_impl k = Some key_hasher ->
  hash (Map k k) m = Some (entrywise_fold key_hasher key_hasher m).
Proof.
  intros Hk.
  rewrite (map_hash_as_coded k k key_hasher (fun x => x) m Hk
             (pass_same_type k) (hash_impl_default_constructible k _ Hk)).
  reflexivity.
Qed.

(** *** Tuples *)

Lemma element_hashes_cons (t : type) (ts : list type)
    (input : tuple (t :: ts)) :
  element_hashes (t :: ts) input =
  (h <- hash t (fst input) ;;
   rest <- element_hashes ts (snd input) ;;
   Some (h :: rest)).
Proof.
  unfold element_hashes.
  change (length (t :: ts)) with (S (length ts)).
  change (seq 0 (S (length ts))) with (0%nat :: seq 1 (length ts)).
  rewrite <- seq_shift. simpl map. rewrite map_map. reflexivity.
Qed.

Lemma element_hashes_expansion (ts : list type) (input : tuple ts) :
  element_hashes ts input =
  (expansion <- hashed_elements hash_impl ts ;; Some (expansion input)).
Proof.
  induction ts as [|t ts IH].
  - reflexivity.
  - rewrite element_hashes_cons, IH. unfold hash. simpl.
    destruct (hash_impl t) as [hasher|]; simpl; [|reflexivity].
    destruct (hashed_elements hash_impl ts) as [rest|]; reflexivity.
Qed.

Lemma hashed_elements_defined (ts : list type) :
  forallb (fun t => is_some (hash_impl t)) ts = true ->
  exists expansion,
    hashed_elements hash_impl ts = Some expansion /\
    forall input, length (expansion input) = length ts.
Proof.
  induction ts as [|t ts IH]; simpl; intros Hts.
  - eexists; split; reflexivity.
  - apply andb_true_iff in Hts as [Ht Hts].
    destruct (IH Hts) as (rest & Hrest & Hlen).
    destruct (hash_impl t) as [hasher|]; [|discriminate]. simpl.
    rewrite Hrest. simpl. eexists; split; [reflexivity|].
    intros input. simpl. f_equal. apply Hlen.
Qed.

(** C4. The hash of a tuple is [OrderedSequenceHash] applied to the list of
    the hashes of its elements, each computed by the rule of the element's
    own type and taken in positional order; when every element type has a
    hash, that list has one entry per element and the result is the
    length-seeded fold over it. *)
Theorem tuple_hash_is_sequence_hash_of_element_hashes (ts : list type)
    (input : tuple ts) :
  hash (Tuple ts) input = sequence_hash_of_element_hashes ts input
  /\ (forallb (fun t => is_some (hash_impl t)) ts = true ->
      exists sub_hashes : list size_t,
        element_hashes ts input = Some sub_hashes /\
        length sub_hashes = length ts /\
        hash (Tuple ts) input
        = Some (OrderedSequenceHash std_hash_size_t sub_hashes) /\
        OrderedSequenceHash std_hash_size_t sub_hashes
        = length_seeded_fold std_hash_size_t sub_hashes).
Proof.
  split.
  - unfold sequence_hash_of_element_hashes, hash.
    rewrite element_hashes_expansion, hash_impl_Tuple.
    destruct (hashed_elements hash_impl ts) as [expansion|]; reflexivity.
  - intros Hts.
    destruct (hashed_elements_defined ts Hts) as (expansion & He & Hlen).
    exists (expansion input).
    rewrite element_hashes_expansion. unfold hash.
    rewrite hash_impl_Tuple, He. simpl.
    repeat split; auto.
Qed.

(** *** Consistency *)

Lemma list_eqb_fold {E : Type} (eqb : E -> E -> bool)
    (step : size_t -> E -> size_t) :
  (forall acc x y, eqb x y = true -> step acc x = step acc y) ->
  forall a b : list E,
    list_eqb eqb a b = true ->
    length a = length b /\
    forall seed, fold_left step a seed = fold_left step b seed.
Proof.
  intros Hstep. induction a as [|x a IH]; intros [|y b] Eab; simpl in Eab;
    try discriminate.
  - split; reflexivity.
  - apply andb_true_iff in Eab as [Exy Eab].
    destruct (IH b Eab) as [Hlen Hfold]. split.
    + simpl. f_equal. exact Hlen.
    + intros seed. simpl. rewrite (Hstep seed x y Exy). apply Hfold.
Qed.

Lemma OrderedSequenceHash_consistent {E : Type} (eqb : E -> E -> bool)
    (hasher : E -> size_t) :
  (forall x y, eqb x y = true -> hasher x = hasher y) ->
  forall a b : list E,
    list_eqb eqb a b = true ->
    OrderedSequenceHash hasher a = OrderedSequenceHash hasher b.
Proof.
  intros Hh a b Eab. unfold OrderedSequenceHash, size.
  destruct (list_eqb_fold eqb (fun hash e => hash_combine hash (hasher e))
              (fun acc x y Exy => f_equal (hash_combine acc) (Hh x y Exy))
              a b Eab) as [Hlen Hfold].
  rewrite Hlen. apply Hfold.
Qed.

Lemma pass_respects_equality (from to : type)
    (conv : value from -> value to) (a b : value from) :
  conversions_respect_equality ->
  pass from to = Some conv ->
  equal from a b = true -> equal to (conv a) (conv b) = true.
Proof.
  intros Hconv. unfold pass.
  destruct (type_eq_dec from to) as [same|different].
  - destruct same. intros [= <-]. simpl. auto.
  - intros Hc. apply (Hconv from to conv a b Hc).
Qed.

Lemma hash_impl_consistent :
  hashers_respect_equality -> conversions_respect_equality ->
  forall (t : type) (hasher : value t -> size_t),
    hash_impl t = Some hasher ->
    forall a b : value t, equal t a b = true -> hasher a = hasher b.
Proof.
  intros Hnamed Hconv.
  induction t as [ | | n | e | t IH | t IH | t IH | k v IHk IHv
                 | t1 t2 IH1 IH2 | ts IH ] using type_nested_ind;
    intros hasher Hh a b E.
  - injection Hh as <-. simpl in E. apply Z.eqb_eq in E. congruence.
  - injection Hh as <-. simpl in E. apply Bool.eqb_prop in E. congruence.
  - exact (Hnamed n hasher a b Hh E).
  - injection Hh as <-. simpl in E. apply Z.eqb_eq in E. congruence.
  - simpl in Hh. destruct (is_bool t); [discriminate|].
    apply bind_Some in Hh as (h & Ht & [= <-]).
    exact (OrderedSequenceHash_consistent _ h (IH h Ht) a b E).
  - simpl in Hh. apply bind_Some in Hh as (h & Ht & [= <-]).
    exact (OrderedSequenceHash_consistent _ h (IH h Ht) a b E).
  - simpl in Hh. apply bind_Some in Hh as (h & Ht & [= <-]).
    exact (OrderedSequenceHash_consistent _ h (IH h Ht) a b E).
  - simpl in Hh. apply bind_Some in Hh as (key_hasher & Hk & Hh).
    apply bind_Some in Hh as (conv & Hc & Hh).
    destruct (default_constructible v); [|discriminate].
    injection Hh as <-. simpl in E. unfold OrderedMapHash.
    eapply list_eqb_fold; [|exact E].
    intros acc x y Exy. simpl in Exy.
    apply andb_true_iff in Exy as [Ek Ev].
    f_equal; [f_equal; exact (IHk key_hasher Hk _ _ Ek)|].
    exact (IHk key_hasher Hk _ _
             (pass_respects_equality v k conv _ _ Hconv Hc Ev)).
  - simpl in Hh. apply bind_Some in Hh as (h1 & H1 & Hh).
    apply bind_Some in Hh as (h2 & H2 & [= <-]).
    simpl in E. apply andb_true_iff in E as [E1 E2].
    unfold PairHash.
    f_equal; [exact (IH1 h1 H1 _ _ E1) | exact (IH2 h2 H2 _ _ E2)].
  - rewrite hash_impl_Tuple in Hh.
    apply bind_Some in Hh as (expansion & He & [= <-]).
    f_equal. revert expansion He a b E.
    induction IH as [|t ts Pt _ IHts]; intros expansion He a b E.
    + injection He as <-. reflexivity.
    + simpl in He. apply bind_Some in He as (h & Ht & He).
      apply bind_Some in He as (rest & Hrest & [= <-]).
      change (equal t (fst a) (fst b) && equal (Tuple ts) (snd a) (snd b)
              = true) in E.
      apply andb_true_iff in E as [E1 E2].
      f_equal; [exact (Pt h Ht _ _ E1) | exact (IHts rest Hrest _ _ E2)].
Qed.

(** X10. Consistency away from line 72: values of a type with a hash that
    are equal under the type's own [==] have the same hash, provided the
    hash functions of the named types respect their [==] (for [GetHash]
    this is Warning-1 of the header) and the implicit conversions map
    [==]-equal values to [==]-equal values. *)
Theorem hash_consistent (t : type) (hasher : value t -> size_t)
    (a b : value t) :
  hashers_respect_equality -> conversions_respect_equality ->
  hash_impl t = Some hasher ->
  equal t a b = true ->
  hash t a = hash t b /\ hash t a = Some (hasher a).
Proof.
  intros Hnamed Hconv Hh E.
  rewrite (hash_Some t hasher a Hh), (hash_Some t hasher b Hh).
  rewrite (hash_impl_consistent Hnamed Hconv t hasher Hh a b E).
  split; reflexivity.
Qed.

End QuickFacts.

(** ** Further laws of the header *)

Section QuickLaws.
Context {T : Types} {H : Host}.

(** *** Enumerations (lines 155-160) *)

(** X1. An enumeration whose underlying values lie in a window of
    [2 ^ 64] consecutive integers (any underlying type of at most 64 bits)
    is hashed without collisions, and a non-negative enumerator hashes to
    its own value. *)
Theorem enum_hash_injective (e : enum) (lo x y : Z) :
  lo <= x < lo + 2 ^ size_t_bits ->
  lo <= y < lo + 2 ^ size_t_bits ->
  (hash (Enum e) x = hash (Enum e) y -> x = y)
  /\ (0 <= x < 2 ^ size_t_bits -> hash (Enum e) x = Some x).
Proof.
  unfold hash; simpl. unfold static_cast_size_t.
  change (2 ^ size_t_bits) with 18446744073709551616.
  intros Hx Hy. split.
  - intros [= E].
    pose proof (Z.div_mod x 18446744073709551616 ltac:(lia)) as Dx.
    pose proof (Z.div_mod y 18446744073709551616 ltac:(lia)) as Dy.
    rewrite E in Dx. lia.
  - intros Hpos. rewrite Z.mod_small by lia. reflexivity.
Qed.

(** *** HashFunction and HashF (lines 196-217) *)

Lemma HashFunction_cons_fold (v : arg) (vs : list arg) :
  HashFunction (v :: vs) =
  fold_left
    (fun acc w => h <- acc ;; hw <- HashF w ;; Some (hash_combine h hw))
    vs (HashFunction [v]).
Proof.
  destruct vs as [|w vs]; [reflexivity|].
  simpl. unfold HashF, HashFunction1.
  destruct (hash (projT1 v) (projT2 v)) as [h|]; simpl.
  - destruct (hash (projT1 w) (projT2 w)) as [hw|]; simpl; [reflexivity|].
    symmetry. apply HashFunction_fold_None.
  - symmetry. apply HashFunction_fold_None.
Qed.

(** X2. With at least one argument in front, appending arguments to a
    [HashFunction] call continues the fold from the hash of the shorter
    call: [HashFunction(v1, ..., vn, w)] is the combination of
    [HashFunction(v1, ..., vn)] with [HashF(w)].  With nothing in front the
    result is [HashF(w)] itself, not its combination with
    [HashFunction()]. *)
Theorem HashFunction_app (vs ws : list arg) (w : arg) :
  vs <> [] ->
  HashFunction (vs ++ ws) =
    fold_left
      (fun acc w => h <- acc ;; hw <- HashF w ;; Some (hash_combine h hw))
      ws (HashFunction vs)
  /\ HashFunction (vs ++ [w]) =
       (h <- HashFunction vs ;; hw <- HashF w ;; Some (hash_combine h hw))
  /\ HashFunction ([] ++ [w]) = HashF w.
Proof.
  intros Hvs.
  assert (forall ws',
             HashFunction (vs ++ ws') =
             fold_left
               (fun acc w => h <- acc ;; hw <- HashF w ;;
                             Some (hash_combine h hw))
               ws' (HashFunction vs)) as Happ.
  { intros ws'. destruct vs as [|v vs]; [contradiction|].
    change ((v :: vs) ++ ws') with (v :: (vs ++ ws')).
    rewrite (HashFunction_cons_fold v (vs ++ ws')), fold_left_app.
    rewrite <- (HashFunction_cons_fold v vs). reflexivity. }
  split; [apply Happ|]. split; [|reflexivity].
  rewrite Happ. reflexivity.
Qed.

Lemma HashFunction1_make_pair (a b : arg) :
  HashFunction1 (make_pair a b) =
  (h <- HashFunction1 a ;; hw <- HashF b ;; Some (hash_combine h hw)).
Proof.
  unfold HashFunction1, HashF, hash; simpl.
  destruct (hash_impl (projT1 a)) as [hasher1|]; simpl; [|reflexivity].
  destruct (hash_impl (projT1 b)) as [hasher2|]; reflexivity.
Qed.

(** X3. Pairs nested to the left hash like the flat argument list:
    [quick::hash] of [make_pair(make_pair(v, v1), v2)] is
    [HashFunction(v, v1, v2)], and so on for any number of components. *)
Theorem nested_pairs_hash_like_HashFunction (v : arg) (vs : list arg) :
  HashFunction [nest v vs] = HashFunction (v :: vs).
Proof.
  rewrite (HashFunction_cons_fold v vs). revert v.
  induction vs as [|w vs IH]; intros v.
  - reflexivity.
  - change (nest v (w :: vs)) with (nest (make_pair v w) vs).
    rewrite IH. simpl fold_left. f_equal.
    exact (HashFunction1_make_pair v w).
Qed.

Lemma HashFunction1_consistent (a b : arg) :
  hashers_respect_equality -> conversions_respect_equality ->
  arg_equal a b -> HashFunction1 a = HashFunction1 b.
Proof.
  intros Hnamed Hconv [t x y E]. unfold HashFunction1, hash; simpl.
  destruct (hash_impl t) as [hasher|] eqn:Ht; simpl; [|reflexivity].
  rewrite (hash_impl_consistent Hnamed Hconv t hasher Ht x y E).
  reflexivity.
Qed.

Lemma HashFunction_ext (vs ws : list arg) :
  Forall2 (fun v w => HashFunction1 v = HashFunction1 w) vs ws ->
  HashFunction vs = HashFunction ws.
Proof.
  intros Eall. destruct Eall as [|v w vs' ws' E Erest]; [reflexivity|].
  rewrite (HashFunction_cons_fold v vs'), (HashFunction_cons_fold w ws').
  change (HashFunction [v]) with (HashFunction1 v).
  change (HashFunction [w]) with (HashFunction1 w).
  rewrite E. generalize (HashFunction1 w). clear E.
  induction Erest as [|v' w' vs'' ws'' E' _ IH]; intros seed; simpl.
  - reflexivity.
  - change (HashF v') with (HashFunction1 v').
    change (HashF w') with (HashFunction1 w').
    rewrite E'. apply IH.
Qed.

(** X4. [HashFunction] is consistent with [==]: two calls whose arguments
    have pairwise the same types and compare equal return the same hash
    (under the preconditions of the consistency law).  A [GetHash] written
    as [HashFunction] of the members, as the header recommends, therefore
    meets Warning-1 for a member-wise [operator==]. *)
Theorem HashFunction_consistent (vs ws : list arg) :
  hashers_respect_equality -> conversions_respect_equality ->
  Forall2 arg_equal vs ws ->
  HashFunction vs = HashFunction ws.
Proof.
  intros Hnamed Hconv E. apply HashFunction_ext.
  induction E as [|v w vs ws Evw _ IH]; constructor; [|exact IH].
  exact (HashFunction1_consistent v w Hnamed Hconv Evw).
Qed.

(** *** Which types have a hash (lines 40-41 and 113-190) *)

Lemma is_some_hashed_elements (ts : list type) :
  is_some (hashed_elements hash_impl ts)
  = forallb (fun t => is_some (hash_impl t)) ts.
Proof.
  induction ts as [|t ts IH]; simpl; [reflexivity|].
  destruct (hash_impl t) as [hasher|]; simpl; [|reflexivity].
  rewrite <- IH. destruct (hashed_elements hash_impl ts); reflexivity.
Qed.

(** X5. A list or set type has a hash exactly when its element type has
    one, and a vector type exactly when its element type has one and is not
    [bool], whatever the value (an empty vector of an unhashable type does
    not compile either); a pair or tuple type exactly when its component
    types have one; a map whose mapped type is its key type exactly when
    the key type has; a named type exactly when it declares [GetHash] or
    [std::hash] is specialised for it. *)
Theorem composite_has_hash_iff_components_have (t t1 t2 : type)
    (ts : list type) (n : name) :
  is_some (hash_impl (Vector t)) = negb (is_bool t) && is_some (hash_impl t)
  /\ is_some (hash_impl (List t)) = is_some (hash_impl t)
  /\ is_some (hash_impl (Set_ t)) = is_some (hash_impl t)
  /\ is_some (hash_impl (Pair t1 t2))
     = is_some (hash_impl t1) && is_some (hash_impl t2)
  /\ is_some (hash_impl (Tuple ts))
     = forallb (fun t => is_some (hash_impl t)) ts
  /\ is_some (hash_impl (Map t t)) = is_some (hash_impl t)
  /\ is_some (hash_impl (Named n))
     = is_some (GetHash (Named n)) || is_some (std_hash n).
Proof.
  repeat split.
  - simpl. destruct (is_bool t); [reflexivity|].
    destruct (hash_impl t); reflexivity.
  - simpl. destruct (hash_impl t); reflexivity.
  - simpl. destruct (hash_impl t); reflexivity.
  - simpl. destruct (hash_impl t1); [|reflexivity].
    destruct (hash_impl t2); reflexivity.
  - rewrite hash_impl_Tuple, <- is_some_hashed_elements.
    destruct (hashed_elements hash_impl ts); reflexivity.
  - simpl. destruct (hash_impl t) as [hasher|] eqn:Ht; [|reflexivity].
    simpl. rewrite pass_same_type. simpl.
    rewrite (hash_impl_default_constructible t hasher Ht). reflexivity.
  - simpl. destruct (GetHash (Named n)); reflexivity.
Qed.

(** *** Maps (lines 65-75) *)

Lemma entrywise_fold_convert_mapped {K V : Type} (key_hasher : K -> size_t)
    (conv : V -> K) (m : list (K * V)) :
  entrywise_fold key_hasher (fun x => key_hasher (conv x)) m
  = entrywise_fold key_hasher key_hasher (convert_mapped conv m).
Proof.
  unfold entrywise_fold, convert_mapped. generalize 0.
  induction m as [|e m IH]; intros acc; simpl; [reflexivity|]. apply IH.
Qed.

(** X6. A [std::map<K, V>] hashes like the [std::map<K, K>] obtained by
    passing every mapped value as a key: the hash sees a mapped value only
    through that conversion, so two maps whose entries agree after it have
    the same hash. *)
Theorem map_hash_sees_mapped_values_as_keys (k v : type)
    (hasher : value (Map k v) -> size_t) (conv : value v -> value k)
    (m m' : value (Map k v)) :
  hash_impl (Map k v) = Some hasher ->
  pass v k = Some conv ->
  hash (Map k k) (convert_mapped conv m) = Some (hasher m)
  /\ (convert_mapped conv m = convert_mapped conv m' -> hasher m = hasher m').
Proof.
  intros Hh Hc.
  pose proof Hh as Hh'. simpl in Hh'.
  apply bind_Some in Hh' as (key_hasher & Hk & Hh').
  apply bind_Some in Hh' as (conv' & Hc' & Hh').
  rewrite Hc in Hc'. injection Hc' as <-.
  destruct (default_constructible v) eqn:Hv; [|discriminate].
  assert (forall m0, hash (Map k k) (convert_mapped conv m0)
                     = Some (hasher m0)) as Hsame.
  { intros m0.
    rewrite (map_hash_same_types k key_hasher _ Hk).
    rewrite <- entrywise_fold_convert_mapped.
    pose proof (map_hash_as_coded k v key_hasher conv m0 Hk Hc Hv) as Hm.
    rewrite (hash_Some _ hasher m0 Hh) in Hm. symmetry. exact Hm. }
  split; [apply Hsame|].
  intros E. pose proof (Hsame m) as E1. rewrite E, Hsame in E1.
  congruence.
Qed.

(** *** Sequences, tuples and HashFunction (lines 55-63, 92-108) *)

Lemma fold_left_map_hasher {E : Type} (f : E -> size_t) (l : list E)
    (seed : size_t) :
  fold_left hash_combine (map f l) seed
  = fold_left (fun hash e => hash_combine hash (f e)) l seed.
Proof.
  revert seed. induction l as [|e l IH]; intros seed; simpl; auto.
Qed.

Lemma hashed_elements_repeat (t : type) (hasher : value t -> size_t)
    (n : nat) :
  hash_impl t = Some hasher ->
  hashed_elements hash_impl (repeat t n)
  = Some (fun input => map hasher (elements t n input)).
Proof.
  intros Ht. induction n as [|n IH]; simpl; [reflexivity|].
  rewrite Ht. simpl. rewrite IH. reflexivity.
Qed.

(** X7. A [std::tuple<T, ..., T>] hashes like a sequence of the same
    elements whose element hashes are passed through [std::hash<size_t>]
    once more; where that function is the identity (as in libstdc++) the
    tuple collides with the [std::list<T>] of the same elements, and with
    the [std::vector<T>] when that type has a hash ([T] is not [bool]). *)
Theorem homogeneous_tuple_hashes_like_sequence (t : type)
    (hasher : value t -> size_t) (n : nat) (input : tuple (repeat t n)) :
  hash_impl t = Some hasher ->
  hash (Tuple (repeat t n)) input
  = Some (OrderedSequenceHash (fun e => std_hash_size_t (hasher e))
            (elements t n input))
  /\ ((forall z : size_t, std_hash_size_t z = z) ->
      hash (Tuple (repeat t n)) input = hash (List t) (elements t n input)
      /\ (is_some (hash_impl (Vector t)) = true ->
          hash (Tuple (repeat t n)) input
          = hash (Vector t) (elements t n input))).
Proof.
  intros Ht.
  assert (hash (Tuple (repeat t n)) input
          = Some (OrderedSequenceHash (fun e => std_hash_size_t (hasher e))
                    (elements t n input))) as Htuple.
  { unfold hash. rewrite hash_impl_Tuple.
    rewrite (hashed_elements_repeat t hasher n Ht). simpl.
    unfold OrderedSequenceHash, size. rewrite length_map.
    rewrite <- (fold_left_map_hasher std_hash_size_t).
    rewrite <- (fold_left_map_hasher (fun e => std_hash_size_t (hasher e))).
    rewrite map_map. reflexivity. }
  split; [exact Htuple|].
  intros Hid. rewrite Htuple.
  assert (Some (OrderedSequenceHash (fun e => std_hash_size_t (hasher e))
                  (elements t n input))
          = Some (OrderedSequenceHash hasher (elements t n input))) as ->.
  { clear Htuple. f_equal. unfold OrderedSequenceHash. cbv zeta.
    generalize (std_hash_size_t (size (elements t n input))).
    induction (elements t n input) as [|e l IH]; intros seed; simpl.
    - reflexivity.
    - rewrite Hid. apply IH. }
  split.
  - unfold hash; simpl; rewrite Ht; reflexivity.
  - intros Hv. unfold hash; simpl. simpl in Hv.
    destruct (is_bool t); [discriminate|]. rewrite Ht. reflexivity.
Qed.

Lemma HashFunction1_make_arg (t : type) (hasher : value t -> size_t)
    (x : value t) :
  hash_impl t = Some hasher ->
  HashFunction1 (make_arg t x) = Some (hasher x).
Proof. intros Ht. unfold HashFunction1. simpl. apply hash_Some, Ht. Qed.

(** X8. A list or set with a hashable element type hashes like the
    [HashFunction] call whose first argument is its size and whose further
    arguments are its elements in iteration order; so does a vector that
    has a hash. *)
Theorem sequence_hash_is_HashFunction_of_size_and_elements (t : type)
    (hasher : value t -> size_t) (input : list (value t)) :
  hash_impl t = Some hasher ->
  hash (List t) input
  = HashFunction (make_arg SizeT (size input) :: map (make_arg t) input)
  /\ hash (Set_ t) input
  = HashFunction (make_arg SizeT (size input) :: map (make_arg t) input)
  /\ (is_some (hash_impl (Vector t)) = true ->
      hash (Vector t) input
      = HashFunction (make_arg SizeT (size input) :: map (make_arg t) input)).
Proof.
  intros Ht.
  assert (HashFunction (make_arg SizeT (size input) :: map (make_arg t) input)
          = Some (OrderedSequenceHash hasher input)) as Hcall.
  { rewrite HashFunction_cons_fold.
    change (HashFunction [make_arg SizeT (size input)])
      with (Some (std_hash_size_t (size input))).
    transitivity
      (Some (fold_left hash_combine (map hasher input)
               (std_hash_size_t (size input)))).
    - apply (HashFunction_fold (map (make_arg t) input) (map hasher input)).
      clear - Ht. induction input as [|x input IH]; simpl; constructor;
        [apply HashFunction1_make_arg, Ht | exact IH].
    - rewrite fold_left_map_hasher. reflexivity. }
  rewrite Hcall. unfold hash; simpl; rewrite Ht; simpl.
  repeat split; try reflexivity.
  intros Hv. destruct (is_bool t); [discriminate|]. reflexivity.
Qed.

(** X9. A map whose mapped type differs from its key type and cannot be
    converted to it has no hash, whether or not both types have one: line 72
    passes the mapped value to the key's hasher. *)
Theorem map_without_conversion_has_no_hash (k v : type)
    (m : value (Map k v)) :
  v <> k ->
  convert v k = None ->
  hash_impl (Map k v) = None /\ hash (Map k v) m = None.
Proof.
  intros Hdiff Hnone.
  assert (hash_impl (Map k v) = None) as Hmap.
  { simpl. destruct (hash_impl k) as [key_hasher|]; [|reflexivity]. simpl.
    unfold pass. destruct (type_eq_dec v k) as [same|_]; [contradiction|].
    rewrite Hnone. reflexivity. }
  split; [exact Hmap|]. unfold hash. rewrite Hmap. reflexivity.
Qed.

End QuickLaws.

(** ** The properties on the sample host *)

Import Sample.

(** [Version::GetHash] is [qk::HashFunction(major, minor)]. *)
Lemma Version_GetHash_is_HashFunction (v : Z * Z) :
  hash t_Version v
  = HashFunction [make_arg t_int (fst v); make_arg t_int (snd v)].
Proof. reflexivity. Qed.

(** A class with no hash function has no [quick::hash], nor has a container
    of it, even an empty one. *)
Lemma Blob_has_no_hash :
  hash_impl t_Blob = None /\ hash (Vector t_Blob) [] = None.
Proof. split; reflexivity. Qed.

Lemma sample_hashers_respect_equality : hashers_respect_equality.
Proof.
  intros [] hasher a b Hh E; simpl in Hh; try discriminate;
    injection Hh as <-; simpl in a, b, E.
  - apply Z.eqb_eq in E. congruence.
  - apply andb_true_iff in E as [E1 E2].
    apply Z.eqb_eq in E1, E2. congruence.
  - apply Z.eqb_eq in E. congruence.
Qed.

Lemma sample_conversions_respect_equality : conversions_respect_equality.
Proof.
  intros from to conv a b Hc E.
  destruct from as [ | | [] | [] | | | | | | ]; try discriminate;
    destruct to as [ | | [] | | | | | | | ]; try discriminate;
    injection Hc as <-; simpl in a, b, E;
    first [apply Z.eqb_eq in E | apply Bool.eqb_prop in E]; subst b;
    first [apply Z.eqb_refl | apply Bool.eqb_reflx].
Qed.

(** C1: [std::map<bool, int>{{true, 2}}].  Line 72 hashes the mapped value
    with the key's hasher, [std::hash<bool>], after converting it to [bool];
    the value's own rule, [std::hash<int>], gives another result, and two
    maps that differ in a non-zero mapped value collide. *)
Lemma map_hash_applies_key_hasher_to_value :
  hash_impl t_bool = Some hash_bool /\
  hash_impl t_int = Some static_cast_size_t /\
  hash (Map t_bool t_int) [(true, 2)] = Some 175247769362 /\
  entrywise_fold hash_bool static_cast_size_t [(true, 2)] = 175247769363 /\
  entrywise_fold hash_bool (fun x : Z => hash_bool (negb (x =? 0))) [(true, 2)]
  = 175247769362 /\
  hash (Map t_bool t_int) [(true, 2)]
  = hash (Map t_bool t_int) [(true, 3)].
Proof. repeat split; vm_compute; reflexivity. Qed.

(** C2, as stated, fails on [std::pair<int, int>(1, 2)]: the pair hashes to
    the combination of its two component hashes, which is neither the
    sequence hash of the list of the two sub-hashes nor the fold of the two
    sub-hashes into the hash of 2. *)
Lemma pair_hash_is_not_length_seeded :
  hash_impl t_int = Some static_cast_size_t /\
  hash (Pair t_int t_int) (1, 2) = Some 2654435834 /\
  hash (Pair t_int t_int) (1, 2)
  <> sequence_hash_of_element_hashes [t_int; t_int] (1, (2, tt)) /\
  hash (Pair t_int t_int) (1, 2)
  <> Some (fold_left hash_combine
             [static_cast_size_t 1; static_cast_size_t 2]
             (std_hash_size_t 2)).
Proof. repeat split; vm_compute; congruence. Qed.

Lemma pair_hash_combines_components_witness :
  hash_impl t_int = Some static_cast_size_t /\
  hash_impl t_bool = Some hash_bool /\
  hash (Pair t_int t_bool) (1, true)
  = Some (hash_combine (static_cast_size_t 1) (hash_bool true)).
Proof.
  split; [reflexivity|]. split; [reflexivity|].
  apply (pair_hash_combines_components t_int t_bool
           static_cast_size_t hash_bool (1, true)); reflexivity.
Defined.

Lemma sequence_hash_is_length_seeded_fold_witness :
  hash_impl t_int = Some static_cast_size_t /\
  is_some (hash_impl (Vector t_int)) = true /\
  exists seed : size_t,
    hash SizeT (Z.of_nat (length [1; 2; 3])) = Some seed /\
    hash (List t_int) [1; 2; 3] =
      Some (fold_left
              (fun seed e => hash_combine seed (static_cast_size_t e))
              [1; 2; 3] seed) /\
    hash (Set_ t_int) [1; 2; 3] =
      Some (fold_left
              (fun seed e => hash_combine seed (static_cast_size_t e))
              [1; 2; 3] seed) /\
    hash (List t_int) [] = hash SizeT 0 /\
    hash (Set_ t_int) [] = hash SizeT 0 /\
    hash (Vector t_int) [1; 2; 3] =
      Some (fold_left
              (fun seed e => hash_combine seed (static_cast_size_t e))
              [1; 2; 3] seed) /\
    hash (Vector t_int) [] = hash SizeT 0.
Proof.
  assert (hash_impl t_int = Some static_cast_size_t) as Ht by reflexivity.
  assert (is_some (hash_impl (Vector t_int)) = true) as Hv by reflexivity.
  split; [exact Ht|]. split; [exact Hv|].
  destruct (sequence_hash_is_length_seeded_fold t_int static_cast_size_t
              [1; 2; 3] Ht)
    as (seed & Hseed & Hlist & Hset & Hlist0 & Hset0 & Hvector).
  exists seed. destruct (Hvector Hv) as [Hvec Hvec0].
  repeat split; assumption.
Defined.

Lemma pair_hash_is_HashFunction_of_components_witness :
  hash t_int 1 = Some 1 /\
  hash t_bool true = Some 1 /\
  hash (Pair t_int t_bool) (1, true)
  = HashFunction [make_arg t_int 1; make_arg t_bool true] /\
  HashFunction [make_arg t_int 1; make_arg t_bool true]
  = Some (hash_combine 1 1).
Proof.
  split; [reflexivity|]. split; [reflexivity|].
  pose proof (pair_hash_is_HashFunction_of_components
                t_int t_bool (1, true)) as [Hsame Hvalue].
  split; [exact Hsame|].
  apply (Hvalue 1 1); reflexivity.
Defined.

Lemma HashFunction_folds_in_argument_order_witness :
  HashFunction1 (make_arg t_int 1) = Some 1 /\
  Forall2 (fun v h => HashFunction1 v = Some h)
    [make_arg t_bool true; make_arg (Vector t_int) [1; 2]]
    [hash_bool true; OrderedSequenceHash static_cast_size_t [1; 2]] /\
  HashFunction
    [make_arg t_int 1; make_arg t_bool true;
     make_arg (Vector t_int) [1; 2]]
  = Some (fold_left hash_combine
            [hash_bool true; OrderedSequenceHash static_cast_size_t [1; 2]] 1) /\
  HashFunction [make_arg t_int 1] = hash t_int 1.
Proof.
  assert (Forall2 (fun v h => HashFunction1 v = Some h)
            [make_arg t_bool true; make_arg (Vector t_int) [1; 2]]
            [hash_bool true; OrderedSequenceHash static_cast_size_t [1; 2]])
    as Hrest by (repeat constructor).
  split; [reflexivity|]. split; [exact Hrest|].
  apply (HashFunction_folds_in_argument_order (make_arg t_int 1)
           [make_arg t_bool true; make_arg (Vector t_int) [1; 2]]
           1 [hash_bool true; OrderedSequenceHash static_cast_size_t [1; 2]]);
    [reflexivity | exact Hrest].
Defined.

Lemma GetHash_takes_precedence_on_named_types_witness :
  GetHash t_Token = Some (fun id : Z => static_cast_size_t (id * 31 + 7)) /\
  @std_hash types host Token = Some static_cast_size_t /\
  hash t_Token 5 = Some (static_cast_size_t (5 * 31 + 7)) /\
  hash_impl t_Token = Some (fun id : Z => static_cast_size_t (id * 31 + 7)) /\
  forall t' : type,
    @hash_impl types (with_GetHash (fun t => GetHash t)) t' = hash_impl t'.
Proof.
  assert (GetHash t_Token
          = Some (fun id : Z => static_cast_size_t (id * 31 + 7))) as Hg
    by reflexivity.
  split; [exact Hg|]. split; [reflexivity|].
  destruct (@GetHash_takes_precedence_on_named_types types host Token
              (fun id : Z => static_cast_size_t (id * 31 + 7)) 5 Hg)
    as (Hhash & Himpl & Hmembers).
  split; [exact Hhash|]. split; [exact Himpl|].
  apply (Hmembers (fun t => GetHash t)). intros m. reflexivity.
Defined.

Lemma empty_map_hashes_to_zero_witness :
  hash_impl (Map t_bool t_int)
  = Some (OrderedMapHash hash_bool (Some static_cast_size_t)
            (fun z : Z => negb (z =? 0))) /\
  OrderedMapHash hash_bool (Some static_cast_size_t)
    (fun z : Z => negb (z =? 0)) [] = 0 /\
  hash (Map t_bool t_int) [] = HashFunction [] /\
  exists step : size_t -> bool * Z -> size_t,
    forall m : list (bool * Z),
      OrderedMapHash hash_bool (Some static_cast_size_t)
        (fun z : Z => negb (z =? 0)) m
      = fold_left step m 0.
Proof.
  split; [reflexivity|].
  apply (empty_map_hashes_to_zero t_bool t_int
           (OrderedMapHash hash_bool (Some static_cast_size_t)
              (fun z : Z => negb (z =? 0)))).
  reflexivity.
Defined.

Lemma hash_consistent_witness :
  hashers_respect_equality /\ conversions_respect_equality /\
  hash_impl (List t_int)
  = Some (OrderedSequenceHash static_cast_size_t) /\
  equal (List t_int) [1; 2; 3] (1 :: 2 :: [1 + 2]) = true /\
  hash (List t_int) [1; 2; 3]
  = hash (List t_int) (1 :: 2 :: [1 + 2]) /\
  hash (List t_int) [1; 2; 3]
  = Some (OrderedSequenceHash static_cast_size_t [1; 2; 3]).
Proof.
  split; [exact sample_hashers_respect_equality|].
  split; [exact sample_conversions_respect_equality|].
  split; [reflexivity|]. split; [reflexivity|].
  apply (hash_consistent (List t_int)
           (OrderedSequenceHash static_cast_size_t)
           [1; 2; 3] (1 :: 2 :: [1 + 2])
           sample_hashers_respect_equality
           sample_conversions_respect_equality);
    reflexivity.
Defined.

Lemma tuple_hash_is_sequence_hash_of_element_hashes_witness :
  forallb (fun t => is_some (hash_impl t))
    [t_int; t_bool; Vector t_int] = true /\
  hash (Tuple [t_int; t_bool; Vector t_int]) (1, (true, ([1; 2], tt)))
  = sequence_hash_of_element_hashes [t_int; t_bool; Vector t_int]
      (1, (true, ([1; 2], tt))) /\
  exists sub_hashes : list size_t,
    element_hashes [t_int; t_bool; Vector t_int] (1, (true, ([1; 2], tt)))
    = Some sub_hashes /\
    length sub_hashes = length [t_int; t_bool; Vector t_int] /\
    hash (Tuple [t_int; t_bool; Vector t_int]) (1, (true, ([1; 2], tt)))
    = Some (OrderedSequenceHash std_hash_size_t sub_hashes) /\
    OrderedSequenceHash std_hash_size_t sub_hashes
    = length_seeded_fold std_hash_size_t sub_hashes.
Proof.
  split; [reflexivity|].
  pose proof (tuple_hash_is_sequence_hash_of_element_hashes
                [t_int; t_bool; Vector t_int] (1, (true, ([1; 2], tt))))
    as [Hsame Hdefined].
  split; [exact Hsame|].
  apply Hdefined. reflexivity.
Defined.

Lemma enum_hash_injective_witness :
  - 2 ^ 31 <= 7 < - 2 ^ 31 + 2 ^ size_t_bits /\
  7 = 7 /\
  hash (@Enum types Color) 7 = Some 7.
Proof.
  assert (- 2 ^ 31 <= 7 < - 2 ^ 31 + 2 ^ size_t_bits) as Hwindow
    by (vm_compute; split; [discriminate | reflexivity]).
  split; [exact Hwindow|].
  destruct (@enum_hash_injective types host Color (- 2 ^ 31) 7 7
              Hwindow Hwindow) as [Hinjective Hself].
  split; [apply Hinjective; reflexivity|].
  apply Hself. vm_compute; split; [discriminate | reflexivity].
Defined.

Lemma HashFunction_app_witness :
  [make_arg t_int 1; make_arg t_bool true] <> [] /\
  HashFunction
    ([make_arg t_int 1; make_arg t_bool true]
     ++ [make_arg (Vector t_int) [1; 2]])
  = (h <- HashFunction [make_arg t_int 1; make_arg t_bool true] ;;
     hw <- HashF (make_arg (Vector t_int) [1; 2]) ;;
     Some (hash_combine h hw)) /\
  HashFunction ([] ++ [make_arg (Vector t_int) [1; 2]])
  = HashF (make_arg (Vector t_int) [1; 2]).
Proof.
  assert ([make_arg t_int 1; make_arg t_bool true] <> []) as Hvs
    by discriminate.
  split; [exact Hvs|].
  apply (HashFunction_app [make_arg t_int 1; make_arg t_bool true]
           [make_arg (Vector t_int) [1; 2]]
           (make_arg (Vector t_int) [1; 2]) Hvs).
Defined.

Lemma HashFunction_consistent_witness :
  hashers_respect_equality /\ conversions_respect_equality /\
  Forall2 arg_equal
    [make_arg t_int 1; make_arg (List t_int) [1; 2; 3]]
    [make_arg t_int 1; make_arg (List t_int) (1 :: 2 :: [1 + 2])] /\
  HashFunction [make_arg t_int 1; make_arg (List t_int) [1; 2; 3]]
  = HashFunction [make_arg t_int 1; make_arg (List t_int) (1 :: 2 :: [1 + 2])].
Proof.
  assert (Forall2 arg_equal
            [make_arg t_int 1; make_arg (List t_int) [1; 2; 3]]
            [make_arg t_int 1; make_arg (List t_int) (1 :: 2 :: [1 + 2])])
    as Hargs.
  { constructor; [exact (arg_equal_intro t_int 1 1 eq_refl)|].
    constructor; [|constructor].
    exact (arg_equal_intro (List t_int) [1; 2; 3] (1 :: 2 :: [1 + 2])
             eq_refl). }
  split; [exact sample_hashers_respect_equality|].
  split; [exact sample_conversions_respect_equality|].
  split; [exact Hargs|].
  exact (HashFunction_consistent _ _ sample_hashers_respect_equality
           sample_conversions_respect_equality Hargs).
Defined.

Lemma map_hash_sees_mapped_values_as_keys_witness :
  hash_impl (Map t_bool t_int)
  = Some (OrderedMapHash hash_bool (Some static_cast_size_t)
            (fun z : Z => negb (z =? 0))) /\
  pass t_int t_bool = Some (fun z : Z => negb (z =? 0)) /\
  hash (Map t_bool t_bool) [(true, true)]
  = Some (OrderedMapHash hash_bool (Some static_cast_size_t)
            (fun z : Z => negb (z =? 0)) [(true, 2)]) /\
  OrderedMapHash hash_bool (Some static_cast_size_t)
    (fun z : Z => negb (z =? 0)) [(true, 2)]
  = OrderedMapHash hash_bool (Some static_cast_size_t)
      (fun z : Z => negb (z =? 0)) [(true, 3)].
Proof.
  assert (hash_impl (Map t_bool t_int)
          = Some (OrderedMapHash hash_bool (Some static_cast_size_t)
                    (fun z : Z => negb (z =? 0)))) as Hh by reflexivity.
  assert (pass t_int t_bool = Some (fun z : Z => negb (z =? 0))) as Hc
    by reflexivity.
  split; [exact Hh|]. split; [exact Hc|].
  destruct (map_hash_sees_mapped_values_as_keys t_bool t_int
              (OrderedMapHash hash_bool (Some static_cast_size_t)
                 (fun z : Z => negb (z =? 0)))
              (fun z : Z => negb (z =? 0))
              [(true, 2)] [(true, 3)] Hh Hc)
    as [Hsame Hcollide].
  split; [exact Hsame|].
  apply Hcollide. reflexivity.
Defined.

Lemma homogeneous_tuple_hashes_like_sequence_witness :
  hash_impl t_int = Some static_cast_size_t /\
  (forall z : size_t, std_hash_size_t z = z) /\
  is_some (hash_impl (Vector t_int)) = true /\
  hash (Tuple [t_int; t_int; t_int]) (1, (2, (3, tt)))
  = hash (List t_int) [1; 2; 3] /\
  hash (Tuple [t_int; t_int; t_int]) (1, (2, (3, tt)))
  = hash (Vector t_int) [1; 2; 3].
Proof.
  assert (hash_impl t_int = Some static_cast_size_t) as Ht by reflexivity.
  assert (forall z : size_t, std_hash_size_t z = z) as Hid by reflexivity.
  assert (is_some (hash_impl (Vector t_int)) = true) as Hv by reflexivity.
  split; [exact Ht|]. split; [exact Hid|]. split; [exact Hv|].
  destruct (homogeneous_tuple_hashes_like_sequence t_int static_cast_size_t
              3 (1, (2, (3, tt))) Ht) as [_ Hcollide].
  destruct (Hcollide Hid) as [Hlist Hvector].
  split; [exact Hlist | exact (Hvector Hv)].
Defined.

Lemma sequence_hash_is_HashFunction_of_size_and_elements_witness :
  hash_impl t_int = Some static_cast_size_t /\
  is_some (hash_impl (Vector t_int)) = true /\
  hash (List t_int) [1; 2; 3]
  = HashFunction
      [make_arg SizeT 3; make_arg t_int 1; make_arg t_int 2;
       make_arg t_int 3] /\
  hash (Set_ t_int) [1; 2; 3]
  = HashFunction
      [make_arg SizeT 3; make_arg t_int 1; make_arg t_int 2;
       make_arg t_int 3] /\
  hash (Vector t_int) [1; 2; 3]
  = HashFunction
      [make_arg SizeT 3; make_arg t_int 1; make_arg t_int 2;
       make_arg t_int 3].
Proof.
  assert (hash_impl t_int = Some static_cast_size_t) as Ht by reflexivity.
  assert (is_some (hash_impl (Vector t_int)) = true) as Hv by reflexivity.
  split; [exact Ht|]. split; [exact Hv|].
  destruct (sequence_hash_is_HashFunction_of_size_and_elements t_int
              static_cast_size_t [1; 2; 3] Ht) as (Hlist & Hset & Hvector).
  split; [exact Hlist|]. split; [exact Hset | exact (Hvector Hv)].
Defined.

Lemma map_without_conversion_has_no_hash_witness :
  Vector t_int <> t_int /\
  convert (Vector t_int) t_int = None /\
  is_some (hash_impl t_int) = true /\
  is_some (hash_impl (Vector t_int)) = true /\
  hash (Map t_int (Vector t_int)) [(1, [2; 3])] = None.
Proof.
  assert (Vector t_int <> t_int) as Hdiff by discriminate.
  assert (convert (Vector t_int) t_int = None) as Hnone by reflexivity.
  split; [exact Hdiff|]. split; [exact Hnone|].
  split; [reflexivity|]. split; [reflexivity|].
  apply (map_without_conversion_has_no_hash t_int (Vector t_int)
           [(1, [2; 3])] Hdiff Hnone).
Defined.

(** ** The corners of the dispatch, on the second host *)

Section CornerFacts.
#[local] Existing Instances Corner.types Corner.host.

(** [Approx::GetHash] meets Warning-1, and so does [std::hash<int>]. *)
Lemma corner_hashers_respect_equality :
  @hashers_respect_equality Corner.types Corner.host.
Proof.
  intros [] hasher a b Hh E; simpl in Hh; injection Hh as <-; simpl in E;
    apply Z.eqb_eq in E.
  - congruence.
  - unfold Corner.Approx_GetHash. rewrite E. reflexivity.
Qed.

(** C5: [std::map<int, Approx>{{0, Approx(2)}}] and
    [std::map<int, Approx>{{0, Approx(3)}}] are equal under [==], the hash
    functions of [int] and [Approx] respect [==], and the two maps hash
    differently: line 72 gives the mapped value to the key's hasher, which
    receives it through [operator int] and sees [2] and [3], where the
    value's own rule, [Approx::GetHash], sees [1] and [1]. *)
Lemma equal_maps_hash_differently :
  @hashers_respect_equality Corner.types Corner.host /\
  equal (Map Corner.t_int Corner.t_Approx) [(0, 2)] [(0, 3)] = true /\
  hash Corner.t_Approx 2 = Some 1 /\
  hash Corner.t_Approx 3 = Some 1 /\
  hash (Map Corner.t_int Corner.t_Approx) [(0, 2)] = Some 175247769552 /\
  hash (Map Corner.t_int Corner.t_Approx) [(0, 3)] = Some 175247769555 /\
  hash (Map Corner.t_int Corner.t_Approx) [(0, 2)]
  <> hash (Map Corner.t_int Corner.t_Approx) [(0, 3)] /\
  @entrywise_fold Corner.types Corner.host Z Z
    static_cast_size_t Corner.Approx_GetHash [(0, 2)]
  = @entrywise_fold Corner.types Corner.host Z Z
      static_cast_size_t Corner.Approx_GetHash [(0, 3)].
Proof.
  split; [exact corner_hashers_respect_equality|].
  repeat split; vm_compute; congruence.
Qed.

(** C8, as stated, fails on the program's own specialisation
    [std::vector<Approx>], which declares [GetHash() { return size(); }]:
    [hash_impl<std::vector<T>>] is selected, and the vector holding
    [Approx(2)] hashes to the sequence hash, not to the value 1 of its
    [GetHash]. *)
Lemma structural_rule_ignores_GetHash :
  GetHash (Vector Corner.t_Approx) = Some Corner.vector_Approx_GetHash /\
  Corner.vector_Approx_GetHash [2] = 1 /\
  hash (Vector Corner.t_Approx) [2]
  = Some (OrderedSequenceHash Corner.Approx_GetHash [2]) /\
  hash (Vector Corner.t_Approx) [2] = Some 2654435835 /\
  hash (Vector Corner.t_Approx) [2]
  <> Some (Corner.vector_Approx_GetHash [2]).
Proof. repeat split; vm_compute; congruence. Qed.

End CornerFacts.
